(** * The [api-member] directive of the WebExtension documentation generator

    A shallow embedding of [template/_extensions/apimember.py]: the helper
    [make_div_node], the directive class [ApiMemberDirective] with its
    [option_spec] and its [run] method, and the extension entry point
    [setup].

    The directive is a plug-in of docutils and Sphinx.  What it uses of them
    and of the Python runtime is modelled next to it, each piece under the
    name it has there: the [int] conversion of a string, [uuid.uuid4] over
    the operating system's random bytes, the node classes of
    [docutils.nodes], the option converter [directives.unchanged] and the
    way docutils turns the option block of a directive into its [options]
    dictionary.  The reStructuredText parser itself is a parameter of the
    development. *)

From Stdlib Require Import ZArith Ascii String List Lia.
From Stdlib.Strings Require Import Byte.
From stdpp Require Import base option list strings gmap pretty.

Local Open Scope Z_scope.

(** ** Python values and exceptions *)

(** The values that occur in option dictionaries, node attributes and the
    dictionary returned by [setup]. *)
Inductive pyval :=
| PyStr (s : string)
| PyInt (z : Z)
| PyBool (b : bool).

(** Exceptions.  [ValueError] carries the text that could not be converted;
    [KeyError] and [DuplicateOptionError] are raised by docutils while it
    assembles the option dictionary. *)
Inductive exn :=
| ValueError (arg : string)
| KeyError (key : string)
| DuplicateOptionError (key : string).

(** ** [int(str)]

    CPython's [PyLong_FromString] in base 10, on text in the ASCII range:
    white space is skipped on both sides, one sign is allowed, and the
    digits may be grouped by single underscores, which may neither start
    nor end the number nor follow one another.  (The optional limit on the
    number of digits, [sys.set_int_max_str_digits], is taken as switched
    off.) *)
Module PyLong.

(** The white space of [pyctype]: tab, the line and page breaks, and the
    space. *)
Definition Py_ISSPACE (c : ascii) : bool :=
  let n := nat_of_ascii c in
  ((9 <=? n) && (n <=? 13) || (n =? 32))%nat.

Definition digit_value (c : ascii) : option Z :=
  let n := nat_of_ascii c in
  if ((48 <=? n) && (n <=? 57))%nat then Some (Z.of_nat n - 48) else None.

Fixpoint lstrip (cs : list ascii) : list ascii :=
  match cs with
  | c :: cs' => if Py_ISSPACE c then lstrip cs' else cs
  | [] => []
  end.

Definition strip (cs : list ascii) : list ascii :=
  rev (lstrip (rev (lstrip cs))).

(** The digit loop.  [prev_us] says that the previous character was an
    underscore; it starts out [true], so that neither an underscore nor
    the end of the text can come first. *)
Fixpoint scan (prev_us : bool) (acc : Z) (cs : list ascii) : option Z :=
  match cs with
  | [] => if prev_us then None else Some acc
  | c :: cs' =>
      if Ascii.eqb c "_" then
        if prev_us then None else scan true acc cs'
      else
        match digit_value c with
        | Some d => scan false (10 * acc + d) cs'
        | None => None
        end
  end.

Definition long_from_string (s : string) : option Z :=
  match strip (list_ascii_of_string s) with
  | "-"%char :: ds => Z.opp <$> scan true 0 ds
  | "+"%char :: ds => scan true 0 ds
  | cs => scan true 0 cs
  end.

End PyLong.

(** [int(x)]: an integer is returned as it is, a string is parsed, and a
    string that is no integer literal raises [ValueError]. *)
Definition int (x : pyval) : exn + Z :=
  match x with
  | PyInt z => inr z
  | PyBool b => inr (if b then 1 else 0)
  | PyStr s =>
      match PyLong.long_from_string s with
      | Some z => inr z
      | None => inl (ValueError s)
      end
  end.

(** ** The random source and [uuid.uuid4] *)

(** The state a run of the directive reads and advances: the bytes that
    [os.urandom] hands out, and how many of them have been consumed. *)
Record world := World {
  entropy : nat -> byte;
  cursor : nat
}.

(** Computations that read the random source and may raise. *)
Definition M (A : Type) : Type := world -> (exn + A) * world.

#[global] Instance M_ret : MRet M := fun A x w => (inr x, w).

#[global] Instance M_bind : MBind M := fun A B f m w =>
  match m w with
  | (inr x, w') => f x w'
  | (inl e, w') => (inl e, w')
  end.

Definition raise_or {A} (r : exn + A) : M A := fun w => (r, w).

Module Uuid.

Definition os_urandom (n : nat) : M (list byte) := fun w =>
  (inr (map (entropy w) (seq (cursor w) n)),
   World (entropy w) (cursor w + n)).

(** [int.from_bytes(b, 'big')] *)
Definition int_from_bytes (bs : list byte) : Z :=
  fold_left (fun acc b => acc * 256 + Z.of_N (Byte.to_N b)) bs 0.

(** [UUID(bytes=bs, version=v)]: the variant and version fields are
    overwritten, the other 122 bits are the random ones.  A UUID is
    modelled by its 128-bit integer, the attribute [int]. *)
Definition UUID (bs : list byte) (version : Z) : Z :=
  let int_ := int_from_bytes bs in
  let int_ := Z.land int_ (Z.lnot (Z.shiftl 0xc000 48)) in
  let int_ := Z.lor int_ (Z.shiftl 0x8000 48) in
  let int_ := Z.land int_ (Z.lnot (Z.shiftl 0xf000 64)) in
  Z.lor int_ (Z.shiftl version 76).

Definition uuid4 : M Z :=
  bs ← os_urandom 16; mret (UUID bs 4).

Definition hex_digit (d : Z) : ascii :=
  match d with
  | 0 => "0" | 1 => "1" | 2 => "2" | 3 => "3"
  | 4 => "4" | 5 => "5" | 6 => "6" | 7 => "7"
  | 8 => "8" | 9 => "9" | 10 => "a" | 11 => "b"
  | 12 => "c" | 13 => "d" | 14 => "e" | _ => "f"
  end%char.

(** The [n] lowest hexadecimal digits, most significant first. *)
Fixpoint hex_digits (n : nat) (z : Z) : list ascii :=
  match n with
  | O => []
  | S n' => hex_digits n' (z / 16) ++ [hex_digit (z mod 16)]
  end.

(** The attribute [hex]: ['%032x' % self.int]. *)
Definition hex (u : Z) : string :=
  string_of_list_ascii (hex_digits 32 u).

End Uuid.

(** ** Nodes of the document tree *)

#[local] Set Warnings "-register-all".

(** [docutils.nodes]: a [Text] leaf, or an [Element] with its tag name (the
    name of the node class), its [ids] and [classes] attributes, its other
    attributes, and its children. *)
Inductive node :=
| Text (data : string)
| Element (tagname : string) (ids classes : list string)
          (attributes : list (string * pyval)) (children : list node).

Module Nodes.

Definition tagname_of (n : node) : string :=
  match n with Text _ => "#text" | Element t _ _ _ _ => t end.

Definition ids_of (n : node) : list string :=
  match n with Text _ => [] | Element _ i _ _ _ => i end.

Definition classes_of (n : node) : list string :=
  match n with Text _ => [] | Element _ _ c _ _ => c end.

Definition attributes_of (n : node) : list (string * pyval) :=
  match n with Text _ => [] | Element _ _ _ a _ => a end.

Definition children_of (n : node) : list node :=
  match n with Text _ => [] | Element _ _ _ _ ch => ch end.

(** An element of class [tag] with the given attributes and no children. *)
Definition element (tag : string) (attrs : list (string * pyval)) : node :=
  Element tag [] [] attrs [].

(** The constructor of [TextElement], called with a text and keyword
    attributes: a [Text] child is made only of a text that is not
    empty. *)
Definition text_element (tag text : string)
    (attrs : list (string * pyval)) : node :=
  Element tag [] [] attrs
          (if String.eqb text "" then [] else [Text text]).

(** [n['ids'] = v] *)
Definition set_ids (v : list string) (n : node) : node :=
  match n with
  | Text s => Text s
  | Element t _ c a ch => Element t v c a ch
  end.

(** [n['classes'] = v] *)
Definition set_classes (v : list string) (n : node) : node :=
  match n with
  | Text s => Text s
  | Element t i _ a ch => Element t i v a ch
  end.

(** [n['classes'].append(c)] *)
Definition append_class (c : string) (n : node) : node :=
  set_classes (classes_of n ++ [c]) n.

(** [n.extend(items)] *)
Definition extend (items : list node) (n : node) : node :=
  match n with
  | Text s => Text s
  | Element t i c a ch => Element t i c a (ch ++ items)
  end.

(** [n.append(item)], also written [n += item] *)
Definition append (item : node) (n : node) : node := extend [item] n.

(** Text separator of a node class: [TextElement] subclasses join the
    text of their children directly, other elements by a blank line. *)
Definition child_text_separator (tag : string) : string :=
  if String.eqb tag "rubric" || String.eqb tag "reference"
     || String.eqb tag "paragraph"
  then ""
  else String (ascii_of_nat 10) (String (ascii_of_nat 10) "").

(** [n.astext()] *)
Fixpoint astext (n : node) : string :=
  match n with
  | Text s => s
  | Element t _ _ _ ch =>
      String.concat (child_text_separator t) (map astext ch)
  end.

End Nodes.

(** ** What docutils and Sphinx do around a directive *)

(** [docutils.parsers.rst.directives] *)
Module Directives.

(** [unchanged]: the option text as it is, the empty string for an option
    given without a value.  It never raises. *)
Definition unchanged (argument : option string) : exn + string :=
  inr (default "" argument).

End Directives.

(** [docutils.utils.assemble_option_dict]: each option of the block is
    looked up in the option specification and its value passed through the
    converter found there. *)
Fixpoint assemble_option_dict
    (option_list : list (string * option string))
    (options_spec : gmap string (option string -> exn + string))
    (options : gmap string string) : exn + gmap string string :=
  match option_list with
  | [] => inr options
  | (name, value) :: rest =>
      match options_spec !! name with
      | None => inl (KeyError name)
      | Some convertor =>
          match options !! name with
          | Some _ => inl (DuplicateOptionError name)
          | None =>
              match convertor value with
              | inl e => inl e
              | inr v =>
                  assemble_option_dict rest options_spec
                                       (<[name := v]> options)
              end
          end
      end
  end.

(** The classes a Sphinx application knows as directives, and the
    application object as far as [add_directive] touches it: the registry of
    directives by name and the warnings logged. *)
Inductive directive_class :=
| ApiMemberDirective
| HostDirective (qualname : string).

Record Sphinx := {
  registry : gmap string directive_class;
  warnings : list string
}.

(** [app.add_directive(name, cls)]: a name already taken is reported and
    then overridden. *)
Definition add_directive (name : string) (cls : directive_class)
    (app : Sphinx) : Sphinx :=
  {| registry := <[name := cls]> (registry app);
     warnings :=
       match registry app !! name with
       | Some _ => warnings app ++ [name]
       | None => warnings app
       end |}.

(** ** The directive *)

(** An instance of the directive class, as docutils hands it to [run]: the
    converted options and the lines of the body. *)
Record Directive := {
  options : gmap string string;
  content : list string
}.

(** [ApiMemberDirective.option_spec] *)
Definition option_spec : gmap string (option string -> exn + string) :=
  list_to_map [
    ("type", Directives.unchanged);
    ("name", Directives.unchanged);
    ("annotation", Directives.unchanged);
    ("refid", Directives.unchanged);
    ("refname", Directives.unchanged);
    ("depth", Directives.unchanged)
  ]%string.

Section ApiMember.

(** The reStructuredText parser of the host.
    [nested_parse_with_titles lines] stands for the children that
    [sphinx.util.nodes.nested_parse_with_titles(self.state, rst, node)]
    adds to [node] for the lines of [rst], and [nested_parse lines] for
    those that [self.state.nested_parse] adds for the body. *)
Variable nested_parse_with_titles : list string -> list node.
Variable nested_parse : list string -> list node.

Definition make_div_node (classname : string) (lines : list string)
    : list node :=
  let div := Nodes.element "container" [] in
  let div := Nodes.set_classes [classname] div in
  let rst := lines in
  let node := Nodes.element "section" [] in
  let node := Nodes.extend (nested_parse_with_titles rst) node in
  let div := Nodes.extend (Nodes.children_of node) div in
  [div].

(** [ApiMemberDirective.run] *)
Definition run (self : Directive) : M (list node) :=
  let nodes_to_return : list node := [] in
  depth ←
    raise_or (int (default (PyInt 0) (PyStr <$> options self !! "depth")));
  nodes_to_return ←
    match options self !! "refid" with
    | Some refid =>
        let rubric_text :=
          default (default refid (options self !! "name"))
                  (options self !! "refname") in
        let rubric := Nodes.text_element "rubric" rubric_text [] in
        u ← Uuid.uuid4;
        let rubric :=
          Nodes.set_ids ["api-member-" +:+ Uuid.hex u] rubric in
        let rubric :=
          Nodes.append_class "api-member-rubric-hidden" rubric in
        mret (nodes_to_return ++ [rubric])
    | None => mret nodes_to_return
    end;
  let apiMemberNode := Nodes.element "container" [] in
  let apiMemberNode := Nodes.set_classes ["api-member-node"] apiMemberNode in
  let apiMemberNode :=
    if 0 <? depth
    then Nodes.append_class ("api-member-depth-" +:+ pretty depth)
                            apiMemberNode
    else apiMemberNode in
  let apiMemberNode :=
    if depth mod 2 =? 1
    then Nodes.append_class "api-member-hide-bullet-point" apiMemberNode
    else apiMemberNode in
  let apiMemberDefinition := Nodes.element "container" [] in
  let apiMemberDefinition :=
    Nodes.set_classes ["api-member-definition"] apiMemberDefinition in
  let apiMemberDefinition :=
    Nodes.extend (make_div_node "api-member-bullet" ["-"])
                 apiMemberDefinition in
  let apiMemberDefinition :=
    match options self !! "name" with
    | Some name =>
        Nodes.extend (make_div_node "api-member-name" [name])
                     apiMemberDefinition
    | None => apiMemberDefinition
    end in
  let apiMemberDefinition :=
    match options self !! "type" with
    | Some type =>
        Nodes.extend (make_div_node "api-member-type" [type])
                     apiMemberDefinition
    | None => apiMemberDefinition
    end in
  let apiMemberDefinition :=
    match options self !! "annotation" with
    | Some annotation =>
        Nodes.extend (make_div_node "api-member-annotation" [annotation])
                     apiMemberDefinition
    | None => apiMemberDefinition
    end in
  let apiMemberDefinition :=
    match options self !! "refid" with
    | Some refid =>
        let link :=
          Nodes.text_element "reference" ""
            [("internal", PyBool true); ("refid", PyStr refid)] in
        let link := Nodes.append_class "headerlink" link in
        let para := Nodes.element "paragraph" [] in
        let para := Nodes.append link para in
        Nodes.extend [para] apiMemberDefinition
    | None => apiMemberDefinition
    end in
  let apiMemberNode := Nodes.append apiMemberDefinition apiMemberNode in
  let apiMemberNode :=
    if (0 <? length (content self))%nat
    then
      let apiMemberDescription := Nodes.element "container" [] in
      let apiMemberDescription :=
        Nodes.set_classes ["api-member-description"] apiMemberDescription in
      let apiMemberDescription :=
        Nodes.extend (nested_parse (content self)) apiMemberDescription in
      Nodes.append apiMemberDescription apiMemberNode
    else apiMemberNode in
  mret (nodes_to_return ++ [apiMemberNode]).

(** How docutils treats one occurrence of the directive: a failure while
    the options are assembled becomes an error message of the directive
    in the document; an exception raised by [run] is not caught. *)
Inductive outcome :=
| DirectiveErrorMessage (e : exn)
| Raised (e : exn)
| Returned (ns : list node).

Definition run_directive (option_list : list (string * option string))
    (body : list string) (w : world) : outcome * world :=
  match assemble_option_dict option_list option_spec ∅ with
  | inl e => (DirectiveErrorMessage e, w)
  | inr opts =>
      match run {| options := opts; content := body |} w with
      | (inl e, w') => (Raised e, w')
      | (inr ns, w') => (Returned ns, w')
      end
  end.

End ApiMember.

(** [setup(app)]: the application after the call, and the dictionary
    returned. *)
Definition setup (app : Sphinx) : Sphinx * gmap string pyval :=
  let app := add_directive "api-member" ApiMemberDirective app in
  (app,
   list_to_map [
     ("version", PyStr "0.1");
     ("parallel_read_safe", PyBool true);
     ("parallel_write_safe", PyBool true)
   ]%string).

(** ** Sample data *)

(** A stand-in for the host parser: one paragraph per line. *)
Definition sample_parse (lines : list string) : list node :=
  map (fun l => Element "paragraph" [] [] [] [Text l]) lines.

Definition counting_world : world :=
  World (fun n => default x00 (Byte.of_N (N.of_nat (n mod 256)))) 0.

(** An option dictionary, written as its list of items. *)
Definition opts (l : list (string * string)) : gmap string string :=
  list_to_map l.

(** ** Reading the output *)

(** A descriptor has depth [d]: its [depth] option is the text of an integer
    literal of value [d], or is absent and [d] is the default, 0. *)
Definition has_depth (self : Directive) (d : Z) : Prop :=
  match options self !! "depth" with
  | Some s => PyLong.long_from_string s = Some d
  | None => d = 0
  end.

Definition has_class (c : string) (n : node) : bool :=
  existsb (String.eqb c) (Nodes.classes_of n).

(** The hidden label: a rubric carrying the class that hides it. *)
Definition is_hidden_label (n : node) : bool :=
  String.eqb (Nodes.tagname_of n) "rubric"
  && has_class "api-member-rubric-hidden" n.

(** The entry container. *)
Definition is_entry (n : node) : bool :=
  String.eqb (Nodes.tagname_of n) "container" && has_class "api-member-node" n.

(** A paragraph holding a link of class [headerlink]. *)
Definition is_headerlink_paragraph (n : node) : bool :=
  String.eqb (Nodes.tagname_of n) "paragraph"
  && existsb (fun l => String.eqb (Nodes.tagname_of l) "reference"
                       && has_class "headerlink" l)
             (Nodes.children_of n).

(** ** The parts of the output, for the proofs

    [run] builds its nodes by successive updates.  The definitions below
    name what the updates add up to; [run_nodes] proves that they are what
    [run] returns. *)

Section Parts.

Variable nested_parse_with_titles : list string -> list node.
Variable nested_parse : list string -> list node.

Definition label_text (self : Directive) (refid : string) : string :=
  default (default refid (options self !! "name"))
          (options self !! "refname").

Definition label_node (self : Directive) (refid : string) (u : Z) : node :=
  Element "rubric" ["api-member-" +:+ Uuid.hex u]
          ["api-member-rubric-hidden"] []
          (if String.eqb (label_text self refid) "" then []
           else [Text (label_text self refid)]).

Definition entry_classes (d : Z) : list string :=
  "api-member-node"
  :: (if 0 <? d then ["api-member-depth-" +:+ pretty d] else [])
  ++ (if d mod 2 =? 1 then ["api-member-hide-bullet-point"] else []).

Definition div_for (classname : string) (o : option string) : list node :=
  match o with
  | Some v => make_div_node nested_parse_with_titles classname [v]
  | None => []
  end.

Definition headerlink_paragraph (refid : string) : node :=
  Element "paragraph" [] [] []
    [Element "reference" [] ["headerlink"]
       [("internal", PyBool true); ("refid", PyStr refid)] []].

Definition definition_node (self : Directive) : node :=
  Element "container" [] ["api-member-definition"] []
    (make_div_node nested_parse_with_titles "api-member-bullet" ["-"]
     ++ div_for "api-member-name" (options self !! "name")
     ++ div_for "api-member-type" (options self !! "type")
     ++ div_for "api-member-annotation" (options self !! "annotation")
     ++ match options self !! "refid" with
        | Some refid => [headerlink_paragraph refid]
        | None => []
        end).

Definition description_nodes (self : Directive) : list node :=
  match content self with
  | [] => []
  | _ :: _ =>
      [Element "container" [] ["api-member-description"] []
               (nested_parse (content self))]
  end.

Definition entry_node (self : Directive) (d : Z) : node :=
  Element "container" [] (entry_classes d) []
          (definition_node self :: description_nodes self).

End Parts.

(** The UUID that [uuid4] makes in world [w], and the world it leaves. *)
Definition drawn (w : world) : Z :=
  Uuid.UUID (map (entropy w) (seq (cursor w) 16)) 4.

Definition advance (w : world) : world :=
  World (entropy w) (cursor w + 16).



(** The member of the end-to-end example: a name, a type and depth 1. *)
Definition foo_member : Directive :=
  {| options := opts [("name", "foo"); ("type", "string"); ("depth", "1")];
     content := [] |}.

(** A member with an anchor, a display name for it, and a body. *)
Definition anchored_member : Directive :=
  {| options := opts [("name", "tabId"); ("refid", "api-tabs-get-tabid");
                      ("refname", "tabs.get(tabId)"); ("depth", "2")];
     content := ["The id of the tab."] |}.

Definition foo_member_plain : Directive :=
  {| options := opts [("name", "foo")]; content := [] |}.


Definition negative_depth_member : Directive :=
  {| options := opts [("name", "foo"); ("depth", "-1")]; content := [] |}.

#[local] Abbreviation sample_run := (run sample_parse sample_parse).

(** ** More ways to read the output *)

(** All the identifiers in a tree: those of the node, then those of its
    children, in document order. *)
Fixpoint tree_ids (n : node) : list string :=
  match n with
  | Text _ => []
  | Element _ i _ _ ch => i ++ flat_map tree_ids ch
  end.

(** A lower-case hexadecimal digit. *)
Definition is_hex_lower (c : ascii) : bool :=
  let n := nat_of_ascii c in
  ((48 <=? n) && (n <=? 57) || (97 <=? n) && (n <=? 102))%nat.

(** The names that [option_spec] knows. *)
Definition option_names : list string :=
  ["type"; "name"; "annotation"; "refid"; "refname"; "depth"].

(** An item of the option block after [directives.unchanged]. *)
Definition converted (item : string * option string) : string * string :=
  (item.1, default "" item.2).

(** An option block that gives [depth] no value, and one with a name that
    the directive does not know. *)
Definition valueless_depth_block : list (string * option string) :=
  [("name", Some "foo"); ("depth", None)].


(** An application in which another extension took the name already. *)
Definition crowded_app : Sphinx :=
  {| registry := {[ "api-member" := HostDirective "other.ApiMember";
                    "note" := HostDirective "docutils.Note" ]};
     warnings := [] |}.

(** A text of white space only; the empty text is one. *)
Definition blank (s : string) : bool :=
  forallb PyLong.Py_ISSPACE (list_ascii_of_string s).


(** The member of the end-to-end example two levels further down, and with
    a body. *)
Definition foo_member_deeper : Directive :=
  {| options := opts [("name", "foo"); ("type", "string"); ("depth", "3")];
     content := [] |}.

Definition foo_member_with_body : Directive :=
  {| options := options foo_member; content := ["A member."; "Of foo."] |}.

(** ** Basic facts *)

Lemma has_depth_int (self : Directive) (d : Z) :
  has_depth self d ->
  int (default (PyInt 0) (PyStr <$> options self !! "depth")) = inr d.
Proof.
  unfold has_depth. destruct (options self !! "depth") as [s|]; simpl.
  - intros ->. reflexivity.
  - intros ->. reflexivity.
Qed.

Lemma uuid4_run (w : world) : Uuid.uuid4 w = (inr (drawn w), advance w).
Proof.
  unfold Uuid.uuid4, Uuid.os_urandom, mbind, M_bind, mret, M_ret, drawn,
    advance.
  cbv beta iota. reflexivity.
Qed.

(** *** Hexadecimal digits determine the number *)

Module UuidFacts.












End UuidFacts.

Section Facts.

Variable nested_parse_with_titles : list string -> list node.
Variable nested_parse : list string -> list node.

#[local] Abbreviation run' := (run nested_parse_with_titles nested_parse).
#[local] Abbreviation entry_node' :=
  (entry_node nested_parse_with_titles nested_parse).

Lemma run_raises (self : Directive) (w : world) (s : string) :
  options self !! "depth" = Some s ->
  PyLong.long_from_string s = None ->
  run' self w = (inl (ValueError s), w).
Proof.
  intros Hs Hbad. unfold run, mbind, M_bind, raise_or.
  rewrite Hs. simpl. rewrite Hbad. reflexivity.
Qed.

Lemma run_nodes (self : Directive) (w : world) (d : Z) :
  has_depth self d ->
  run' self w =
    match options self !! "refid" with
    | Some refid =>
        (inr [label_node self refid (drawn w); entry_node' self d],
         advance w)
    | None => (inr [entry_node' self d], w)
    end.
Proof.
  intros Hd. unfold run, mbind, M_bind, raise_or.
  rewrite (has_depth_int _ _ Hd).
  unfold entry_node, definition_node, description_nodes,
    entry_classes, label_node, label_text, div_for.
  destruct (options self !! "refid") as [r|];
    [rewrite uuid4_run|];
    unfold mret, M_ret.
  - generalize (Uuid.hex (drawn w)) as h. generalize (pretty d) as pd.
    intros pd h.
    destruct (options self !! "name"), (options self !! "type"),
      (options self !! "annotation"), (content self),
      (0 <? d), (d mod 2 =? 1); reflexivity.
  - generalize (pretty d) as pd. intros pd.
    destruct (options self !! "name"), (options self !! "type"),
      (options self !! "annotation"), (content self),
      (0 <? d), (d mod 2 =? 1); reflexivity.
Qed.

Lemma odd_mod2 (d : Z) : Z.odd d = true -> (d mod 2 =? 1) = true.
Proof. intros H. rewrite Zmod_odd, H. reflexivity. Qed.

Lemma even_mod2 (d : Z) : Z.even d = true -> (d mod 2 =? 1) = false.
Proof.
  intros H. rewrite Zmod_odd, <- Z.negb_even, H. reflexivity.
Qed.

(** What [run] returns for a descriptor of depth [d], whatever its other
    options: the optional label, then an entry whose classes are
    [entry_classes d]. *)
Lemma run_entry (self : Directive) (w : world) (d : Z) :
  has_depth self d ->
  exists (label : list node) (w' : world),
    run' self w = (inr (label ++ [entry_node' self d]), w').
Proof.
  intros Hd. rewrite (run_nodes self w d Hd).
  destruct (options self !! "refid") as [r|].
  - exists [label_node self r (drawn w)], (advance w). reflexivity.
  - exists [], w. reflexivity.
Qed.

(** C2. Depth and the style classes of the entry container.  For a
    descriptor of depth 0, which includes one without a [depth] option,
    the entry container has the class [api-member-node] and no other; for
    one of odd depth it has the class that hides the bullet point; for one
    of even depth above 0 it has the class [api-member-depth-<depth>] and
    not the class that hides the bullet point. *)
Theorem depth_style_classes (self : Directive) (w : world) (d : Z) :
  has_depth self d ->
  exists (label : list node) (entry : node) (w' : world),
    run' self w = (inr (label ++ [entry]), w')
    /\ (d = 0 -> Nodes.classes_of entry = ["api-member-node"])
    /\ (Z.odd d = true ->
        has_class "api-member-hide-bullet-point" entry = true)
    /\ (0 < d -> Z.even d = true ->
        has_class ("api-member-depth-" +:+ pretty d) entry = true
        /\ has_class "api-member-hide-bullet-point" entry = false).
Proof.
  intros Hd. destruct (run_entry self w d Hd) as (label & w' & Hrun).
  exists label, (entry_node' self d), w'. split; [exact Hrun|].
  unfold has_class, entry_node, Nodes.classes_of, entry_classes.
  split; [|split].
  - intros ->. reflexivity.
  - intros Hodd. rewrite (odd_mod2 d Hodd).
    destruct (0 <? d); cbn [existsb app];
      rewrite String.eqb_refl, ?orb_true_r; reflexivity.
  - intros Hpos Heven. apply Z.ltb_lt in Hpos.
    rewrite Hpos, (even_mod2 d Heven). split.
    + cbn [existsb app]. rewrite String.eqb_refl, orb_true_r. reflexivity.
    + generalize (pretty d). intros pd. vm_compute. reflexivity.
Qed.

(** C3. The text of the hidden label.  For a descriptor with [refid], the
    first node returned is the hidden label, and its text is [refname]
    when that is given, whether or not [name] is; else [name] when that
    is given; else [refid]. *)
Theorem hidden_label_text (self : Directive) (w : world) (d : Z)
    (refid : string) :
  has_depth self d ->
  options self !! "refid" = Some refid ->
  exists (label entry : node) (w' : world),
    run' self w = (inr [label; entry], w')
    /\ is_hidden_label label = true
    /\ (forall refname, options self !! "refname" = Some refname ->
          Nodes.astext label = refname)
    /\ (forall name, options self !! "refname" = None ->
          options self !! "name" = Some name ->
          Nodes.astext label = name)
    /\ (options self !! "refname" = None ->
        options self !! "name" = None ->
        Nodes.astext label = refid).
Proof.
  intros Hd Hr. rewrite (run_nodes self w d Hd), Hr.
  exists (label_node self refid (drawn w)), (entry_node' self d), (advance w).
  split; [reflexivity|]. split; [reflexivity|].
  assert (Htext : Nodes.astext (label_node self refid (drawn w))
                  = label_text self refid).
  { unfold label_node. cbn [Nodes.astext].
    destruct (String.eqb (label_text self refid) "") eqn:He.
    - apply String.eqb_eq in He. rewrite He. reflexivity.
    - reflexivity. }
  rewrite Htext. unfold label_text. repeat split.
  - intros refname ->. reflexivity.
  - intros name -> ->. reflexivity.
  - intros -> ->. reflexivity.
Qed.

(** C4. Without [refid] there is no label and no headerlink.  For a
    descriptor without [refid], [run] returns the entry container alone,
    so no hidden label; the first child of the entry is the definition
    container, and none of its children is a headerlink paragraph. *)
Theorem no_refid_no_label (self : Directive) (w : world) (d : Z) :
  has_depth self d ->
  options self !! "refid" = None ->
  exists (entry definition : node),
    run' self w = (inr [entry], w)
    /\ existsb is_hidden_label [entry] = false
    /\ head (Nodes.children_of entry) = Some definition
    /\ Nodes.classes_of definition = ["api-member-definition"]
    /\ existsb is_headerlink_paragraph (Nodes.children_of definition)
       = false.
Proof.
  intros Hd Hr. rewrite (run_nodes self w d Hd), Hr.
  exists (entry_node' self d), (definition_node nested_parse_with_titles self).
  repeat split.
  unfold definition_node. rewrite Hr. cbn [Nodes.children_of].
  rewrite !existsb_app.
  destruct (options self !! "name"), (options self !! "type"),
    (options self !! "annotation"); reflexivity.
Qed.

(** C5. The list returned.  For every descriptor, [run] returns the hidden
    label followed by the entry container, two nodes, when [refid] is
    present, and the entry container alone when it is absent. *)
Theorem run_returns_label_then_entry (self : Directive) (w : world)
    (d : Z) :
  has_depth self d ->
  (forall refid, options self !! "refid" = Some refid ->
     exists (label entry : node) (w' : world),
       run' self w = (inr [label; entry], w')
       /\ is_hidden_label label = true /\ is_entry entry = true)
  /\ (options self !! "refid" = None ->
      exists entry : node,
        run' self w = (inr [entry], w) /\ is_entry entry = true).
Proof.
  intros Hd. rewrite (run_nodes self w d Hd). split.
  - intros refid ->.
    exists (label_node self refid (drawn w)), (entry_node' self d),
      (advance w).
    repeat split.
  - intros ->. exists (entry_node' self d). repeat split.
Qed.


(** C9. Negative depth.  For a descriptor whose [depth] option is the text
    of a negative integer, [run] succeeds; the entry container has no
    depth class, and it has the class that hides the bullet point exactly
    when the depth is odd. *)
Theorem negative_depth_classes (self : Directive) (w : world)
    (s : string) (d : Z) :
  options self !! "depth" = Some s ->
  PyLong.long_from_string s = Some d ->
  d < 0 ->
  exists (label : list node) (entry : node) (w' : world),
    run' self w = (inr (label ++ [entry]), w')
    /\ Nodes.classes_of entry =
         (if Z.odd d
          then ["api-member-node"; "api-member-hide-bullet-point"]
          else ["api-member-node"])
    /\ has_class ("api-member-depth-" +:+ pretty d) entry = false
    /\ has_class "api-member-hide-bullet-point" entry = Z.odd d.
Proof.
  intros Hs Hparse Hneg.
  assert (Hd : has_depth self d) by (unfold has_depth; rewrite Hs; exact Hparse).
  destruct (run_entry self w d Hd) as (label & w' & Hrun).
  exists label, (entry_node' self d), w'. split; [exact Hrun|].
  unfold has_class, entry_node, Nodes.classes_of, entry_classes.
  assert (H0 : (0 <? d) = false) by (apply Z.ltb_ge; lia). rewrite H0.
  rewrite Zmod_odd. generalize (pretty d). intros pd.
  destruct (Z.odd d); repeat split; vm_compute; reflexivity.
Qed.

(** C10. [refname] counts only with [refid].  Two descriptors without
    [refid] that differ at most in [refname] (present or absent, or in its
    text) give the same result of [run], the nodes as well as a failure. *)
Theorem refname_ignored_without_refid (self1 self2 : Directive)
    (w : world) :
  options self1 !! "refid" = None ->
  options self2 !! "refid" = None ->
  delete "refname" (options self1) = delete "refname" (options self2) ->
  content self1 = content self2 ->
  run' self1 w = run' self2 w.
Proof.
  intros Hr1 Hr2 Hopt Hcontent.
  assert (Hk : forall k : string, k <> "refname" ->
                 options self1 !! k = options self2 !! k).
  { intros k Hne.
    rewrite <- (lookup_delete_ne (options self1) "refname" k) by congruence.
    rewrite <- (lookup_delete_ne (options self2) "refname" k) by congruence.
    rewrite Hopt. reflexivity. }
  assert (Hentry : forall d, entry_node' self1 d = entry_node' self2 d).
  { intros d.
    unfold entry_node, definition_node, description_nodes.
    rewrite Hcontent, (Hk "name"), (Hk "type"), (Hk "annotation"),
      (Hk "refid") by discriminate.
    reflexivity. }
  pose proof (Hk "depth" ltac:(discriminate)) as Hdepth.
  destruct (options self2 !! "depth") as [s|] eqn:Hs2.
  - destruct (PyLong.long_from_string s) as [d|] eqn:Hp.
    + rewrite (run_nodes self1 w d), (run_nodes self2 w d), Hr1, Hr2, Hentry;
        [reflexivity | unfold has_depth; rewrite ?Hs2, ?Hdepth; exact Hp..].
    + rewrite (run_raises self1 w s), (run_raises self2 w s); auto.
  - rewrite (run_nodes self1 w 0), (run_nodes self2 w 0), Hr1, Hr2, Hentry;
      [reflexivity | unfold has_depth; rewrite ?Hs2, ?Hdepth; reflexivity..].
Qed.




End Facts.

(** C8. The entry point.  For every application, [setup] registers the
    directive class under the name [api-member] and returns a dictionary of
    three entries: [version], a string, and the two flags
    [parallel_read_safe] and [parallel_write_safe], both [True]. *)
Theorem setup_capabilities (app : Sphinx) :
  registry (fst (setup app)) !! "api-member" = Some ApiMemberDirective
  /\ snd (setup app) !! "version" = Some (PyStr "0.1")
  /\ snd (setup app) !! "parallel_read_safe" = Some (PyBool true)
  /\ snd (setup app) !! "parallel_write_safe" = Some (PyBool true)
  /\ dom (snd (setup app))
     = {[ "version"; "parallel_read_safe"; "parallel_write_safe" ]}.
Proof.
  unfold setup, add_directive. cbn [fst snd registry].
  split; [apply lookup_insert_eq|].
  repeat split; vm_compute; reflexivity.
Qed.

(** ** The claims on sample descriptors *)



Lemma depth_style_classes_witness :
  exists (label : list node) (entry : node) (w' : world),
    sample_run anchored_member counting_world = (inr (label ++ [entry]), w')
    /\ has_class "api-member-depth-2" entry = true
    /\ has_class "api-member-hide-bullet-point" entry = false.
Proof.
  destruct (depth_style_classes sample_parse sample_parse anchored_member
              counting_world 2)
    as (label & entry & w' & Hrun & _ & _ & Heven).
  { vm_compute. reflexivity. }
  exists label, entry, w'. split; [exact Hrun|].
  apply Heven; [lia | reflexivity].
Defined.

Lemma hidden_label_text_witness :
  exists (label entry : node) (w' : world),
    sample_run anchored_member counting_world = (inr [label; entry], w')
    /\ Nodes.astext label = "tabs.get(tabId)".
Proof.
  destruct (hidden_label_text sample_parse sample_parse anchored_member
              counting_world 2 "api-tabs-get-tabid")
    as (label & entry & w' & Hrun & _ & Hrefname & _).
  { vm_compute. reflexivity. }
  { vm_compute. reflexivity. }
  exists label, entry, w'. split; [exact Hrun|].
  apply Hrefname. vm_compute. reflexivity.
Defined.

Lemma no_refid_no_label_witness :
  exists (entry definition : node),
    sample_run foo_member counting_world = (inr [entry], counting_world)
    /\ existsb is_hidden_label [entry] = false
    /\ head (Nodes.children_of entry) = Some definition
    /\ Nodes.classes_of definition = ["api-member-definition"]
    /\ existsb is_headerlink_paragraph (Nodes.children_of definition)
       = false.
Proof.
  apply (no_refid_no_label sample_parse sample_parse foo_member
           counting_world 1).
  - vm_compute. reflexivity.
  - vm_compute. reflexivity.
Defined.

Lemma run_returns_label_then_entry_witness :
  (exists (label entry : node) (w' : world),
     sample_run anchored_member counting_world = (inr [label; entry], w')
     /\ is_hidden_label label = true /\ is_entry entry = true)
  /\ (exists entry : node,
        sample_run foo_member counting_world = (inr [entry], counting_world)
        /\ is_entry entry = true).
Proof.
  split.
  - apply (proj1 (run_returns_label_then_entry sample_parse sample_parse
                    anchored_member counting_world 2
                    ltac:(vm_compute; reflexivity))
                 "api-tabs-get-tabid").
    vm_compute. reflexivity.
  - apply (proj2 (run_returns_label_then_entry sample_parse sample_parse
                    foo_member counting_world 1
                    ltac:(vm_compute; reflexivity))).
    vm_compute. reflexivity.
Defined.




Lemma negative_depth_classes_witness :
  exists (label : list node) (entry : node) (w' : world),
    sample_run negative_depth_member counting_world
    = (inr (label ++ [entry]), w')
    /\ Nodes.classes_of entry
       = ["api-member-node"; "api-member-hide-bullet-point"].
Proof.
  destruct (negative_depth_classes sample_parse sample_parse
              negative_depth_member counting_world "-1" (-1))
    as (label & entry & w' & Hrun & Hclasses & _).
  { vm_compute. reflexivity. }
  { vm_compute. reflexivity. }
  { lia. }
  exists label, entry, w'. split; [exact Hrun | exact Hclasses].
Defined.

Lemma refname_ignored_without_refid_witness :
  sample_run
    {| options := opts [("name", "foo"); ("refname", "Foo")];
       content := [] |} counting_world
  = sample_run foo_member_plain counting_world.
Proof.
  apply refname_ignored_without_refid.
  - vm_compute. reflexivity.
  - vm_compute. reflexivity.
  - vm_compute. reflexivity.
  - reflexivity.
Defined.

(** ** Further properties of the directive *)

Section MoreFacts.

Variable nested_parse_with_titles : list string -> list node.
Variable nested_parse : list string -> list node.

#[local] Abbreviation run'' := (run nested_parse_with_titles nested_parse).
#[local] Abbreviation div'' := (make_div_node nested_parse_with_titles).

Lemma depth_class_ne_node (pd : string) :
  "api-member-depth-" +:+ pd <> "api-member-node".
Proof. cbv [String.append]. discriminate. Qed.

Lemma depth_class_ne_hide (pd : string) :
  "api-member-depth-" +:+ pd <> "api-member-hide-bullet-point".
Proof. cbv [String.append]. discriminate. Qed.

(** X1. The class list of the entry container, in full.  For a descriptor
    of depth [d] the classes are, in this order and without a repetition:
    [api-member-node]; then [api-member-depth-<d>] if [d] is above 0; then
    the class that hides the bullet point if [d] is odd.  So an odd depth
    above 0 gives all three. *)
Theorem entry_class_list (self : Directive) (w : world) (d : Z) :
  has_depth self d ->
  exists (label : list node) (entry : node) (w' : world),
    run'' self w = (inr (label ++ [entry]), w')
    /\ Nodes.classes_of entry =
         "api-member-node"
         :: (if 0 <? d then ["api-member-depth-" +:+ pretty d] else [])
         ++ (if Z.odd d then ["api-member-hide-bullet-point"] else [])
    /\ NoDup (Nodes.classes_of entry).
Proof.
  intros Hd.
  destruct (run_entry nested_parse_with_titles nested_parse self w d Hd)
    as (label & w' & Hrun).
  exists label, (entry_node nested_parse_with_titles nested_parse self d), w'.
  split; [exact Hrun|].
  unfold entry_node, Nodes.classes_of, entry_classes.
  assert (Hm : (d mod 2 =? 1) = Z.odd d)
    by (rewrite Zmod_odd; destruct (Z.odd d); reflexivity).
  rewrite Hm.
  pose proof (depth_class_ne_node (pretty d)) as Hn.
  pose proof (depth_class_ne_hide (pretty d)) as Hh.
  destruct (0 <? d), (Z.odd d); (split; [reflexivity|]);
    cbn [app]; rewrite ?NoDup_cons, ?not_elem_of_cons;
    repeat split;
    try apply NoDup_nil_2; try apply not_elem_of_nil;
    try discriminate; congruence.
Qed.

(** X2. The children of the entry container.  The definition container
    comes first; a description container follows exactly when the body has
    a line, and it holds what the host parser makes of the body.  Without a
    body the entry has the definition container alone. *)
Theorem entry_children (self : Directive) (w : world) (d : Z) :
  has_depth self d ->
  exists (label : list node) (entry definition : node) (w' : world),
    run'' self w = (inr (label ++ [entry]), w')
    /\ Nodes.classes_of definition = ["api-member-definition"]
    /\ Nodes.children_of entry =
         definition
         :: match content self with
            | [] => []
            | _ :: _ =>
                [Element "container" [] ["api-member-description"] []
                         (nested_parse (content self))]
            end.
Proof.
  intros Hd.
  destruct (run_entry nested_parse_with_titles nested_parse self w d Hd)
    as (label & w' & Hrun).
  exists label, (entry_node nested_parse_with_titles nested_parse self d),
    (definition_node nested_parse_with_titles self), w'.
  split; [exact Hrun|]. split; reflexivity.
Qed.

(** X3. Identifiers.  The directive gives an identifier to the hidden label
    and to nothing else: the identifiers in the nodes returned are the one
    of the label, when [refid] is present, followed by those the host
    parser put into its own nodes, for the bullet, the name, the type, the
    annotation and the body, in this order. *)
Theorem only_label_gets_id (self : Directive) (w : world) (d : Z) :
  has_depth self d ->
  exists (out : list node) (w' : world),
    run'' self w = (inr out, w')
    /\ flat_map tree_ids out =
         match options self !! "refid" with
         | Some _ => ["api-member-" +:+ Uuid.hex (drawn w)]
         | None => []
         end
         ++ flat_map tree_ids (nested_parse_with_titles ["-"])
         ++ match options self !! "name" with
            | Some name => flat_map tree_ids (nested_parse_with_titles [name])
            | None => []
            end
         ++ match options self !! "type" with
            | Some type => flat_map tree_ids (nested_parse_with_titles [type])
            | None => []
            end
         ++ match options self !! "annotation" with
            | Some annotation =>
                flat_map tree_ids (nested_parse_with_titles [annotation])
            | None => []
            end
         ++ match content self with
            | [] => []
            | _ :: _ => flat_map tree_ids (nested_parse (content self))
            end.
Proof.
  intros Hd.
  rewrite (run_nodes nested_parse_with_titles nested_parse self w d Hd).
  assert (Hlabel : forall r u, tree_ids (label_node self r u)
                               = ["api-member-" +:+ Uuid.hex u]).
  { intros r u. unfold label_node. cbn [tree_ids].
    destruct (String.eqb (label_text self r) ""); reflexivity. }
  assert (Hdiv : forall c o,
            flat_map tree_ids (div_for nested_parse_with_titles c o)
            = match o with
              | Some v => flat_map tree_ids (nested_parse_with_titles [v])
              | None => []
              end).
  { intros c [v|]; [|reflexivity]. cbn. apply app_nil_r. }
  assert (Hentry :
    tree_ids (entry_node nested_parse_with_titles nested_parse self d)
    = flat_map tree_ids (nested_parse_with_titles ["-"])
      ++ match options self !! "name" with
         | Some name => flat_map tree_ids (nested_parse_with_titles [name])
         | None => []
         end
      ++ match options self !! "type" with
         | Some type => flat_map tree_ids (nested_parse_with_titles [type])
         | None => []
         end
      ++ match options self !! "annotation" with
         | Some annotation =>
             flat_map tree_ids (nested_parse_with_titles [annotation])
         | None => []
         end
      ++ match content self with
         | [] => []
         | _ :: _ => flat_map tree_ids (nested_parse (content self))
         end).
  { unfold entry_node, definition_node, description_nodes.
    cbn [tree_ids app flat_map]. rewrite !flat_map_app, !Hdiv.
    change (flat_map tree_ids
              (make_div_node nested_parse_with_titles "api-member-bullet" ["-"]))
      with (flat_map tree_ids (nested_parse_with_titles ["-"]) ++ []).
    assert (Hlink : flat_map tree_ids
                      match options self !! "refid" with
                      | Some refid => [headerlink_paragraph refid]
                      | None => []
                      end = []).
    { destruct (options self !! "refid"); reflexivity. }
    rewrite Hlink, !app_nil_r, <- !app_assoc.
    repeat f_equal.
    destruct (content self); [reflexivity|].
    cbn [flat_map tree_ids app]. rewrite !app_nil_r. reflexivity. }
  destruct (options self !! "refid") as [r|].
  - eexists _, _. split; [reflexivity|].
    cbn [flat_map]. rewrite Hlabel, Hentry, app_nil_r. reflexivity.
  - eexists _, _. split; [reflexivity|].
    cbn [flat_map]. rewrite Hentry, app_nil_r. reflexivity.
Qed.

(** X4. The depth class tells the depth.  Two descriptors of depths above
    0 get entry containers with the same class list exactly when their
    depths are equal. *)
Theorem depth_class_determines_depth (self1 self2 : Directive)
    (w1 w2 : world) (d1 d2 : Z) :
  has_depth self1 d1 -> has_depth self2 d2 -> 0 < d1 -> 0 < d2 ->
  exists (label1 label2 : list node) (entry1 entry2 : node)
         (w1' w2' : world),
    run'' self1 w1 = (inr (label1 ++ [entry1]), w1')
    /\ run'' self2 w2 = (inr (label2 ++ [entry2]), w2')
    /\ (Nodes.classes_of entry1 = Nodes.classes_of entry2 <-> d1 = d2).
Proof.
  intros Hd1 Hd2 Hpos1 Hpos2.
  destruct (run_entry nested_parse_with_titles nested_parse self1 w1 d1 Hd1)
    as (label1 & w1' & Hrun1).
  destruct (run_entry nested_parse_with_titles nested_parse self2 w2 d2 Hd2)
    as (label2 & w2' & Hrun2).
  exists label1, label2,
    (entry_node nested_parse_with_titles nested_parse self1 d1),
    (entry_node nested_parse_with_titles nested_parse self2 d2), w1', w2'.
  split; [exact Hrun1|]. split; [exact Hrun2|].
  unfold entry_node, Nodes.classes_of, entry_classes.
  apply Z.ltb_lt in Hpos1, Hpos2. rewrite Hpos1, Hpos2. split.
  - intros Heq. cbn [app] in Heq.
    assert (Hp : pretty d1 = pretty d2).
    { revert Heq. generalize (pretty d1) (pretty d2). intros p1 p2 Heq.
      cbv [String.append] in Heq. congruence. }
    apply (inj pretty). exact Hp.
  - intros ->. reflexivity.
Qed.

(** X5. The depth changes the classes of the entry container and nothing
    else.  Two descriptors that differ at most in their [depth], both
    depths being integers, return the same label and entry containers with
    the same children; only the class lists of the two entries can
    differ. *)
Theorem depth_changes_classes_only (self1 self2 : Directive) (w : world)
    (d1 d2 : Z) :
  delete "depth" (options self1) = delete "depth" (options self2) ->
  content self1 = content self2 ->
  has_depth self1 d1 -> has_depth self2 d2 ->
  exists (label children : list node) (classes1 classes2 : list string)
         (w' : world),
    run'' self1 w
    = (inr (label ++ [Element "container" [] classes1 [] children]), w')
    /\ run'' self2 w
       = (inr (label ++ [Element "container" [] classes2 [] children]), w').
Proof.
  intros Hopt Hcontent Hd1 Hd2.
  assert (Hk : forall k : string, k <> "depth" ->
                 options self1 !! k = options self2 !! k).
  { intros k Hne.
    rewrite <- (lookup_delete_ne (options self1) "depth" k) by congruence.
    rewrite <- (lookup_delete_ne (options self2) "depth" k) by congruence.
    rewrite Hopt. reflexivity. }
  rewrite (run_nodes nested_parse_with_titles nested_parse self1 w d1 Hd1),
    (run_nodes nested_parse_with_titles nested_parse self2 w d2 Hd2).
  unfold entry_node, definition_node, description_nodes, label_node,
    label_text.
  rewrite Hcontent, (Hk "name"), (Hk "type"), (Hk "annotation"),
    (Hk "refid"), (Hk "refname") by discriminate.
  destruct (options self2 !! "refid") as [r|].
  - eexists [_], _, _, _, _. split; reflexivity.
  - eexists [], _, _, _, _. split; reflexivity.
Qed.

Lemma hex_digit_is_hex (a : Z) :
  0 <= a < 16 -> is_hex_lower (Uuid.hex_digit a) = true.
Proof.
  intros Ha.
  assert (Hc : a = 0 \/ a = 1 \/ a = 2 \/ a = 3 \/ a = 4 \/ a = 5
               \/ a = 6 \/ a = 7 \/ a = 8 \/ a = 9 \/ a = 10 \/ a = 11
               \/ a = 12 \/ a = 13 \/ a = 14 \/ a = 15) by lia.
  repeat (destruct Hc as [->|Hc]; [reflexivity|]).
  subst a. reflexivity.
Qed.

Lemma hex_digits_shape (n : nat) : forall z : Z,
  length (Uuid.hex_digits n z) = n
  /\ forallb is_hex_lower (Uuid.hex_digits n z) = true.
Proof.
  induction n as [|n IH]; intros z; [split; reflexivity|].
  destruct (IH (z / 16)) as [Hlen Hall]. cbn [Uuid.hex_digits]. split.
  - rewrite length_app, Hlen. cbn [length]. lia.
  - rewrite forallb_app, Hall. cbn [forallb].
    rewrite hex_digit_is_hex by (apply Z.mod_pos_bound; lia). reflexivity.
Qed.

(** X6. The shape of the generated identifier.  The hidden label has one
    identifier: [api-member-] followed by exactly 32 lower-case hexadecimal
    digits, whatever the random source hands out. *)
Theorem label_id_shape (self : Directive) (w : world) (d : Z)
    (refid : string) :
  has_depth self d ->
  options self !! "refid" = Some refid ->
  exists (label entry : node) (w' : world) (digits : list ascii),
    run'' self w = (inr [label; entry], w')
    /\ Nodes.ids_of label
       = ["api-member-" +:+ string_of_list_ascii digits]
    /\ length digits = 32%nat
    /\ forallb is_hex_lower digits = true.
Proof.
  intros Hd Hr.
  rewrite (run_nodes nested_parse_with_titles nested_parse self w d Hd), Hr.
  destruct (hex_digits_shape 32 (drawn w)) as [Hlen Hall].
  exists (label_node self refid (drawn w)),
    (entry_node nested_parse_with_titles nested_parse self d), (advance w),
    (Uuid.hex_digits 32 (drawn w)).
  split; [reflexivity|]. split; [reflexivity|]. split; assumption.
Qed.

End MoreFacts.

(** ** The option block *)

Lemma option_spec_known (k : string) :
  k ∈ option_names -> option_spec !! k = Some Directives.unchanged.
Proof.
  unfold option_names. rewrite !elem_of_cons, elem_of_nil.
  intros [->|[->|[->|[->|[->|[->|[]]]]]]]; reflexivity.
Qed.



Lemma converted_names (l : list (string * option string)) :
  (converted <$> l).*1 = l.*1.
Proof. induction l as [|[k v] l IH]; [reflexivity|]. cbn. f_equal. exact IH. Qed.

Lemma assemble_accepts (l : list (string * option string)) :
  forall acc : gmap string string,
    Forall (fun item => item.1 ∈ option_names) l ->
    NoDup l.*1 ->
    (forall k, k ∈ l.*1 -> acc !! k = None) ->
    assemble_option_dict l option_spec acc
    = inr (list_to_map (converted <$> l) ∪ acc).
Proof.
  induction l as [|[name value] rest IH]; intros acc Hknown Hnodup Hfresh.
  - cbn. rewrite (left_id_L ∅ (∪)). reflexivity.
  - apply Forall_cons in Hknown as [Hname Hknown].
    cbn [fmap list_fmap fst] in Hnodup, Hfresh.
    apply NoDup_cons in Hnodup as [Hnotin Hnodup].
    cbn [assemble_option_dict].
    rewrite (option_spec_known name Hname),
      (Hfresh name ltac:(apply list_elem_of_here)).
    cbn [Directives.unchanged].
    rewrite IH; [|exact Hknown|exact Hnodup|].
    + f_equal. cbn [fmap list_fmap converted fst snd list_to_map foldr].
      rewrite <- insert_union_l. symmetry. apply insert_union_r.
      apply not_elem_of_list_to_map. rewrite converted_names. exact Hnotin.
    + intros k Hk. rewrite lookup_insert_ne by (intros ->; contradiction).
      apply Hfresh. apply list_elem_of_further, Hk.
Qed.





(** X9. The entry point and the other directives.  [setup] touches the
    registry of the application at the name [api-member] only, where it
    replaces whatever was registered; calling it a second time changes
    neither the registry nor the dictionary returned. *)
Theorem setup_frame (app : Sphinx) :
  (forall name, name <> "api-member" ->
     registry (setup app).1 !! name = registry app !! name)
  /\ registry (setup (setup app).1).1 = registry (setup app).1
  /\ (setup (setup app).1).2 = (setup app).2.
Proof.
  unfold setup, add_directive. cbn [fst snd registry]. repeat split.
  - intros name Hne. apply lookup_insert_ne. congruence.
  - apply insert_insert_eq.
Qed.

(** ** Integers and their decimal text *)



Lemma lstrip_blank (l : list ascii) :
  forallb PyLong.Py_ISSPACE l = true -> PyLong.lstrip l = [].
Proof.
  induction l as [|c l IH]; [reflexivity|]. cbn [forallb PyLong.lstrip].
  intros H. apply andb_prop in H as [Hc Hl]. rewrite Hc. apply IH, Hl.
Qed.

Lemma long_from_string_blank (s : string) :
  blank s = true -> PyLong.long_from_string s = None.
Proof.
  unfold blank, PyLong.long_from_string, PyLong.strip. intros H.
  rewrite (lstrip_blank _ H). reflexivity.
Qed.





Section BlockFacts.

Variable nested_parse_with_titles : list string -> list node.
Variable nested_parse : list string -> list node.

(** X10. A blank depth.  When the option block passes and gives [depth] no
    value, or white space only, the directive raises the [ValueError] of
    the [int] conversion of that text, and reads nothing from the random
    source; docutils gets no error message for the document. *)
Theorem blank_depth_raises (option_list : list (string * option string))
    (body : list string) (w : world) (value : option string) :
  Forall (fun item => item.1 ∈ option_names) option_list ->
  NoDup option_list.*1 ->
  ("depth", value) ∈ option_list ->
  blank (default "" value) = true ->
  run_directive nested_parse_with_titles nested_parse option_list body w
  = (Raised (ValueError (default "" value)), w).
Proof.
  intros Hknown Hnodup Hin Hblank. unfold run_directive.
  rewrite (assemble_accepts option_list ∅ Hknown Hnodup)
    by (intros k _; apply lookup_empty).
  rewrite (right_id_L ∅ (∪)).
  rewrite (run_raises nested_parse_with_titles nested_parse _ w
             (default "" value)).
  - reflexivity.
  - cbn [options]. apply elem_of_list_to_map_1.
    + rewrite converted_names. exact Hnodup.
    + apply (list_elem_of_fmap_2 converted _ _ Hin).
  - apply long_from_string_blank, Hblank.
Qed.


(** X12. The body changes the description and nothing else.  Two
    descriptors with the same options return the same label, and entry
    containers with the same classes and the same definition container,
    whatever their bodies; only what follows the definition container can
    differ. *)
Theorem body_changes_description_only (self1 self2 : Directive) (w : world)
    (d : Z) :
  options self1 = options self2 ->
  has_depth self1 d ->
  exists (label after1 after2 : list node) (classes : list string)
         (definition : node) (w' : world),
    run nested_parse_with_titles nested_parse self1 w
    = (inr (label ++ [Element "container" [] classes []
                              (definition :: after1)]), w')
    /\ run nested_parse_with_titles nested_parse self2 w
       = (inr (label ++ [Element "container" [] classes []
                                 (definition :: after2)]), w').
Proof.
  intros Hopt Hd1.
  assert (Hd2 : has_depth self2 d) by (unfold has_depth in *; rewrite <- Hopt; exact Hd1).
  rewrite (run_nodes nested_parse_with_titles nested_parse self1 w d Hd1),
    (run_nodes nested_parse_with_titles nested_parse self2 w d Hd2).
  unfold entry_node, definition_node, label_node, label_text.
  rewrite Hopt.
  destruct (options self2 !! "refid") as [r|].
  - eexists [_], _, _, _, _, _. split; reflexivity.
  - eexists [], _, _, _, _, _. split; reflexivity.
Qed.


End BlockFacts.

(** ** The further properties on sample descriptors *)

Lemma entry_class_list_witness :
  exists (label : list node) (entry : node) (w' : world),
    sample_run foo_member counting_world = (inr (label ++ [entry]), w')
    /\ Nodes.classes_of entry
       = ["api-member-node"; "api-member-depth-1";
          "api-member-hide-bullet-point"].
Proof.
  destruct (entry_class_list sample_parse sample_parse foo_member
              counting_world 1)
    as (label & entry & w' & Hrun & Hclasses & _).
  { vm_compute. reflexivity. }
  exists label, entry, w'. split; [exact Hrun|].
  rewrite Hclasses. vm_compute. reflexivity.
Defined.

Lemma entry_children_witness :
  exists (label : list node) (entry definition : node) (w' : world),
    sample_run anchored_member counting_world = (inr (label ++ [entry]), w')
    /\ Nodes.children_of entry
       = [definition;
          Element "container" [] ["api-member-description"] []
            [Element "paragraph" [] [] [] [Text "The id of the tab."]]].
Proof.
  destruct (entry_children sample_parse sample_parse anchored_member
              counting_world 2)
    as (label & entry & definition & w' & Hrun & _ & Hchildren).
  { vm_compute. reflexivity. }
  exists label, entry, definition, w'. split; [exact Hrun|].
  rewrite Hchildren. reflexivity.
Defined.

Lemma only_label_gets_id_witness :
  exists (out : list node) (w' : world),
    sample_run anchored_member counting_world = (inr out, w')
    /\ flat_map tree_ids out
       = ["api-member-000102030405460788090a0b0c0d0e0f"].
Proof.
  destruct (only_label_gets_id sample_parse sample_parse anchored_member
              counting_world 2)
    as (out & w' & Hrun & Hids).
  { vm_compute. reflexivity. }
  exists out, w'. split; [exact Hrun|].
  rewrite Hids. vm_compute. reflexivity.
Defined.

Lemma depth_class_determines_depth_witness :
  exists (label1 label2 : list node) (entry1 entry2 : node)
         (w1' w2' : world),
    sample_run foo_member counting_world = (inr (label1 ++ [entry1]), w1')
    /\ sample_run anchored_member counting_world
       = (inr (label2 ++ [entry2]), w2')
    /\ Nodes.classes_of entry1 <> Nodes.classes_of entry2.
Proof.
  destruct (depth_class_determines_depth sample_parse sample_parse
              foo_member anchored_member counting_world counting_world 1 2)
    as (l1 & l2 & e1 & e2 & w1' & w2' & Hrun1 & Hrun2 & Hiff).
  { vm_compute. reflexivity. }
  { vm_compute. reflexivity. }
  { lia. }
  { lia. }
  exists l1, l2, e1, e2, w1', w2'.
  split; [exact Hrun1|]. split; [exact Hrun2|].
  intros Heq. apply Hiff in Heq. discriminate Heq.
Defined.

Lemma depth_changes_classes_only_witness :
  exists (label children : list node) (classes1 classes2 : list string)
         (w' : world),
    sample_run foo_member counting_world
    = (inr (label ++ [Element "container" [] classes1 [] children]), w')
    /\ sample_run foo_member_deeper counting_world
       = (inr (label ++ [Element "container" [] classes2 [] children]), w').
Proof.
  apply (depth_changes_classes_only sample_parse sample_parse foo_member
           foo_member_deeper counting_world 1 3).
  - vm_compute. reflexivity.
  - reflexivity.
  - vm_compute. reflexivity.
  - vm_compute. reflexivity.
Defined.

Lemma label_id_shape_witness :
  exists (label entry : node) (w' : world) (digits : list ascii),
    sample_run anchored_member counting_world = (inr [label; entry], w')
    /\ Nodes.ids_of label
       = ["api-member-" +:+ string_of_list_ascii digits]
    /\ length digits = 32%nat
    /\ forallb is_hex_lower digits = true.
Proof.
  apply (label_id_shape sample_parse sample_parse anchored_member
           counting_world 2 "api-tabs-get-tabid").
  - vm_compute. reflexivity.
  - vm_compute. reflexivity.
Defined.



Lemma setup_frame_witness :
  registry (setup crowded_app).1 !! "note"
  = Some (HostDirective "docutils.Note").
Proof.
  rewrite (proj1 (setup_frame crowded_app) "note").
  - vm_compute. reflexivity.
  - discriminate.
Defined.

Lemma blank_depth_raises_witness :
  run_directive sample_parse sample_parse valueless_depth_block []
                counting_world
  = (Raised (ValueError ""), counting_world).
Proof.
  apply (blank_depth_raises sample_parse sample_parse valueless_depth_block
           [] counting_world None).
  - repeat constructor.
  - apply (bool_decide_unpack _). vm_compute. exact I.
  - repeat constructor.
  - reflexivity.
Defined.


Lemma body_changes_description_only_witness :
  exists (label after1 after2 : list node) (classes : list string)
         (definition : node) (w' : world),
    sample_run foo_member counting_world
    = (inr (label ++ [Element "container" [] classes []
                              (definition :: after1)]), w')
    /\ sample_run foo_member_with_body counting_world
       = (inr (label ++ [Element "container" [] classes []
                                 (definition :: after2)]), w').
Proof.
  apply (body_changes_description_only sample_parse sample_parse foo_member
           foo_member_with_body counting_world 1).
  - reflexivity.
  - vm_compute. reflexivity.
Defined.
